(** * MineCash: the cost calculator [scripts/calculate-cost.py]

    A shallow embedding of the script and the properties of its sizing and
    costing functions.  Python integers are [Z]; Python floats are IEEE 754
    binary64 values, here Rocq's primitive [float]; dictionaries are [gmap]s;
    a raised exception is the [Raise] branch of [result].  [main] takes the
    reading of its argument by [int] as a parameter. *)

From Stdlib Require Import ZArith List String Ascii Bool Lia Floats Uint63.
From stdpp Require Import base option list gmap strings.

Set Warnings "-inexact-float".
Local Open Scope Z_scope.

(** ** The fragment of the Python runtime the script relies on *)

Module Py.

(** Exceptions the script can meet. *)
Inductive exn : Set := ValueError | KeyError | OverflowError.

Inductive result (A : Type) : Type :=
| Ok (a : A)
| Raise (e : exn).
Global Arguments Ok {A} a.
Global Arguments Raise {A} e.

Global Instance result_ret : MRet result := fun A a => Ok a.
Global Instance result_bind : MBind result := fun A B k m =>
  match m with
  | Ok a => k a
  | Raise e => Raise e
  end.

Global Instance result_fmap : FMap result := fun A B f m =>
  match m with
  | Ok a => Ok (f a)
  | Raise e => Raise e
  end.

Definition returns {A} (m : result A) : Prop := exists a, m = Ok a.

(** The float nearest to [m * 2^e], ties to even; an infinity when that
    is out of range. *)
Definition nearest_float (m e : Z) (negative_zero : bool) : float :=
  SF2Prim (binary_normalize prec emax m e negative_zero).

(** [float(n)] for an integer [n]: the nearest float, ties to even.  Up to
    [2^53] in absolute value the conversion is exact and is the machine one.
    Where the nearest float would be infinite Python raises [OverflowError];
    the value here is then the infinity. *)
Definition float_of_int (n : Z) : float :=
  if Z.abs n <=? 9007199254740992 then
    if n <? 0 then (- PrimFloat.of_uint63 (Uint63.of_Z (- n)))%float
    else PrimFloat.of_uint63 (Uint63.of_Z n)
  else nearest_float n 0 false.

(** [a / b] on two integers, [b] not zero: true division, the float nearest
    to the exact quotient.  When both operands convert exactly it is the
    machine division of the two floats.  Otherwise the quotient is taken
    with 55 bits or more and a sticky bit, and rounded once.  Where the
    result would be infinite Python raises [OverflowError]; the value here
    is then the infinity, on which [math_ceil] raises the same. *)
Definition truediv (a b : Z) : float :=
  if (Z.abs a <=? 9007199254740992) && (Z.abs b <=? 9007199254740992) then
    (float_of_int a / float_of_int b)%float
  else
    let k := 55 + Z.log2 (Z.abs b) - Z.log2 (Z.abs a) in
    let num := if 0 <=? k then Z.shiftl (Z.abs a) k else Z.abs a in
    let den := if 0 <=? k then Z.abs b else Z.shiftl (Z.abs b) (- k) in
    let sticky := if num mod den =? 0 then 0 else 1 in
    let m := 2 * (num / den) + sticky in
    let negative := xorb (a <? 0) (b <? 0) in
    nearest_float (if negative then - m else m) (- k - 1) negative.

(** [math.ceil(x)]: the least integer not below [x], computed as
    [- floor (- x)] on the exact value [n * 2^e] of [x] (a shift to the
    right by a negative amount is a shift to the left); infinities raise
    [OverflowError] and NaN raises [ValueError]. *)
Definition math_ceil (x : float) : result Z :=
  match Prim2SF x with
  | S754_zero _ => Ok 0
  | S754_finite s m e =>
      let n := if s then Z.neg m else Z.pos m in
      Ok (- Z.shiftr (- n) (- e))
  | S754_infinity _ => Raise OverflowError
  | S754_nan => Raise ValueError
  end.

(** [min(l)] on a list: [ValueError] on the empty list. *)
Definition min (l : list Z) : result Z :=
  match l with
  | [] => Raise ValueError
  | x :: l' => Ok (fold_left Z.min l' x)
  end.

(** [d[k]]: [KeyError] when the key is absent. *)
Definition subscript {V} (d : gmap Z V) (k : Z) : result V :=
  match d !! k with
  | Some v => Ok v
  | None => Raise KeyError
  end.

(** [d.get(k, dflt)]. *)
Definition get {V} (d : gmap string V) (k : string) (dflt : V) : V :=
  default dflt (d !! k).

(** Nearest integer to [num / 2^k] ([0 <= k]), ties to the even one. *)
Definition round_half_even (num k : Z) : Z :=
  let q := Z.shiftr num k in
  let r := num - Z.shiftl q k in
  match 2 * r ?= Z.shiftl 1 k with
  | Lt => q
  | Gt => q + 1
  | Eq => if Z.even q then q else q + 1
  end.

(** [round(x, ndigits)] on a float, [0 <= ndigits]: the exact binary value
    [m * 2^e] of [|x|] is rounded to the nearest multiple of [10^-ndigits]
    (ties to even) and that decimal is read back as the nearest float.  A
    float with [0 <= e] is an integer and is its own rounding. *)
Definition round (x : float) (ndigits : Z) : float :=
  match Prim2SF x with
  | S754_finite s m e =>
      if 0 <=? e then x
      else
        let scale := 10 ^ ndigits in
        let n := round_half_even (Z.pos m * scale) (- e) in
        let r := truediv n scale in
        if s then (- r)%float else r
  | _ => x
  end.

(** [int(s)] on an ASCII string of at most 640 digits (fewer than any
    setting of the interpreter's limit on digits): surrounding white space
    (tab, line feed, vertical tab, form feed, carriage return, space), an
    optional sign, then decimal digits, single underscores allowed between
    digits.  [None] stands for [ValueError].  Strings with a byte above 127
    are outside this fragment: [int] reads the decimal digits and the white
    space of every script, which are not modelled.  The statements about
    every command line do not use this function; they take the reading of
    the argument as a parameter. *)
Definition is_space (c : ascii) : bool :=
  let n := Z.of_nat (nat_of_ascii c) in
  ((9 <=? n) && (n <=? 13)) || (n =? 32).

Definition digit_value (c : ascii) : option Z :=
  let n := Z.of_nat (nat_of_ascii c) in
  if (48 <=? n) && (n <=? 57) then Some (n - 48) else None.

Fixpoint parse_digits (acc : Z) (after_digit : bool) (cs : list ascii)
  : option Z :=
  match cs with
  | [] => if after_digit then Some acc else None
  | c :: cs' =>
      match digit_value c with
      | Some d => parse_digits (10 * acc + d) true cs'
      | None =>
          if Ascii.eqb c "_" && after_digit then parse_digits acc false cs'
          else None
      end
  end.

Fixpoint lstrip (cs : list ascii) : list ascii :=
  match cs with
  | c :: cs' => if is_space c then lstrip cs' else cs
  | [] => []
  end.

Definition strip (cs : list ascii) : list ascii :=
  rev (lstrip (rev (lstrip cs))).

Definition int_ascii (s : string) : option Z :=
  match strip (list_ascii_of_string s) with
  | c :: cs =>
      if Ascii.eqb c "-" then Z.opp <$> parse_digits 0 false cs
      else if Ascii.eqb c "+" then parse_digits 0 false cs
      else parse_digits 0 false (c :: cs)
  | [] => None
  end.

End Py.

Import Py.

(** ** Module constants *)

Definition ECS_CPU_PRICE_PER_VCPU_HOUR : float := 0.04048.
Definition ECS_MEMORY_PRICE_PER_GB_HOUR : float := 0.004445.
Definition HOURS_PER_MONTH : Z := 730.

Definition REDIS_HOURLY_PRICING : gmap string float :=
  list_to_map
    [ ("cache.t3.micro"%string, 0.017%float);
      ("cache.t3.small"%string, 0.034%float);
      ("cache.t3.medium"%string, 0.068%float);
      ("cache.t3.large"%string, 0.136%float);
      ("cache.r6g.large"%string, 0.126%float);
      ("cache.r6g.xlarge"%string, 0.252%float) ].

Definition EFS_STORAGE_PRICE_PER_GB_MONTH : float := 0.30.
Definition EFS_BASELINE_STORAGE_GB : Z := 100.

Definition NAT_GATEWAY_PRICE_PER_MONTH : float := 32.40.
Definition ALB_BASE_PRICE_PER_MONTH : float := 16.20.
Definition GLOBAL_ACCELERATOR_PRICE_PER_MONTH : float := 7.20.

Definition CPU_OPTIONS : list Z := [256; 512; 1024; 2048; 4096; 8192; 16384].

Definition CPU_MEMORY_MIN : gmap Z Z :=
  list_to_map
    [ (256, 512); (512, 1024); (1024, 2048); (2048, 4096); (4096, 8192);
      (8192, 16384); (16384, 32768) ].

Definition CPU_MEMORY_MAX : gmap Z Z :=
  list_to_map
    [ (256, 2048); (512, 4096); (1024, 8192); (2048, 16384); (4096, 30720);
      (8192, 30720); (16384, 61440) ].

(** ** [calculate_resources] *)

Record resources : Type := Resources {
  cpu_vcpu : Z;
  cpu_units : Z;
  memory_gb : float;
  memory_mb : Z;
  desired_count : Z;
  redis_node_type : string;
  redis_replica_count : Z;
  efs_performance_mode : string;
  nat_gateway_count : Z;
  enable_global_accelerator : bool
}.

(** The [if]/[elif] chain that picks the Redis instance type. *)
Definition select_redis_node_type (player_capacity : Z) : string :=
  if player_capacity <=? 500 then "cache.t3.micro"
  else if player_capacity <=? 2000 then "cache.t3.small"
  else if player_capacity <=? 5000 then "cache.t3.medium"
  else if player_capacity <=? 10000 then "cache.t3.large"
  else if player_capacity <=? 20000 then "cache.r6g.large"
  else "cache.r6g.xlarge".

Definition calculate_resources (player_capacity : Z) : result resources :=
  (* CPU calculation *)
  c100 ← math_ceil (truediv player_capacity 100);
  let cpu_vcpu := Z.max 1 c100 in
  let cpu_units := cpu_vcpu * 1024 in
  (* Round up to nearest CPU option *)
  rounded_cpu ← Py.min (filter (fun cpu => cpu >= cpu_units) CPU_OPTIONS);
  (* Memory calculation *)
  c50 ← math_ceil (truediv player_capacity 50);
  let memory_gb := Z.max 2 c50 in
  let memory_mb := memory_gb * 1024 in
  (* Validate memory against CPU constraints *)
  valid_memory_min ← subscript CPU_MEMORY_MIN rounded_cpu;
  valid_memory_max ← subscript CPU_MEMORY_MAX rounded_cpu;
  let memory_mb := Z.max valid_memory_min (Z.min memory_mb valid_memory_max) in
  let memory_gb := truediv memory_mb 1024 in
  (* Redis instance type *)
  let redis_node_type := select_redis_node_type player_capacity in
  (* Redis replica count *)
  c5000 ← math_ceil (truediv player_capacity 5000);
  let redis_replica_count := Z.max 0 (c5000 - 1) in
  (* EFS performance mode *)
  let efs_performance_mode :=
    if player_capacity >=? 5000 then "maxIO"%string
    else "generalPurpose"%string in
  (* NAT Gateway count *)
  let nat_gateway_count := if player_capacity >=? 10000 then 2 else 1 in
  (* Global Accelerator *)
  let enable_global_accelerator := player_capacity >=? 1000 in
  (* ECS desired count *)
  desired_count ← (if player_capacity <? 5000 then Ok 1
                   else c ← math_ceil (truediv player_capacity 5000);
                        Ok (Z.max 2 c));
  Ok {| cpu_vcpu := cpu_vcpu;
        cpu_units := rounded_cpu;
        memory_gb := memory_gb;
        memory_mb := memory_mb;
        desired_count := desired_count;
        redis_node_type := redis_node_type;
        redis_replica_count := redis_replica_count;
        efs_performance_mode := efs_performance_mode;
        nat_gateway_count := nat_gateway_count;
        enable_global_accelerator := enable_global_accelerator |}.


(** ** [calculate_costs] *)

Module Cost.
Record t : Type := Make {
  ecs : float;
  redis : float;
  efs : float;
  nat : float;
  alb : float;
  accelerator : float;
  total : float
}.
End Cost.

Section Costs.
Local Open Scope float_scope.
Variable r : resources.

(** The unrounded amounts, named as the local variables of the function.
    An integer operand of a float product is converted first. *)
Definition ecs_cost : float :=
  (float_of_int (cpu_vcpu r) * ECS_CPU_PRICE_PER_VCPU_HOUR +
   memory_gb r * ECS_MEMORY_PRICE_PER_GB_HOUR) *
  float_of_int HOURS_PER_MONTH * float_of_int (desired_count r).

Definition redis_hourly : float :=
  Py.get REDIS_HOURLY_PRICING (redis_node_type r) 0.017.

Definition redis_cost : float :=
  redis_hourly * float_of_int HOURS_PER_MONTH *
  float_of_int (redis_replica_count r + 1)%Z.

Definition efs_cost : float :=
  float_of_int EFS_BASELINE_STORAGE_GB * EFS_STORAGE_PRICE_PER_GB_MONTH.

Definition nat_cost : float :=
  float_of_int (nat_gateway_count r) * NAT_GATEWAY_PRICE_PER_MONTH.

Definition alb_cost : float := ALB_BASE_PRICE_PER_MONTH.

(** The [else] branch is the integer [0]; it enters the sum as [0.0]. *)
Definition accelerator_cost : float :=
  if enable_global_accelerator r then GLOBAL_ACCELERATOR_PRICE_PER_MONTH
  else 0.

Definition total_cost : float :=
  ecs_cost + redis_cost + efs_cost + nat_cost + alb_cost + accelerator_cost.

Definition calculate_costs : Cost.t :=
  {| Cost.ecs := Py.round ecs_cost 2;
     Cost.redis := Py.round redis_cost 2;
     Cost.efs := Py.round efs_cost 2;
     Cost.nat := Py.round nat_cost 2;
     Cost.alb := Py.round alb_cost 2;
     Cost.accelerator := Py.round accelerator_cost 2;
     Cost.total := Py.round total_cost 2 |}.
End Costs.

(** ** [main] *)

(** What the script prints on success; its rendering is not modelled. *)
Inductive document : Type :=
| JsonDocument (player_capacity : Z) (r : resources) (c : Cost.t)
| TextReport (player_capacity : Z) (r : resources) (c : Cost.t).

(** The observable steps of a run, in order. *)
Inductive event : Type :=
| Print (line : string)
| PrintDocument (d : document)
| Call_calculate_resources (player_capacity : Z)
| Call_calculate_costs (r : resources)
| Traceback (e : exn).

Definition usage_message : string :=
  "Usage: python3 scripts/calculate-cost.py <player_capacity> [--json]".

Definition invalid_message (arg : string) : string :=
  "Error: Invalid player capacity '" +:+ arg +:+ "'. Must be an integer.".

Definition range_message : string :=
  "Error: Player capacity must be between 100 and 50,000.".

Section Main.

(** [int] applied to [sys.argv[1]]: the integer read, or [None] when
    [ValueError] is raised.  It is a parameter of the run: nothing below
    depends on which strings the interpreter reads as integers. *)
Variable int : string -> option Z.

(** A run on [sys.argv]: the events and the exit status.  An exception
    nobody catches ends the run with a traceback and status 1.  Printing is
    taken to succeed. *)
Definition main (argv : list string) : list event * Z :=
  if Z.of_nat (length argv) <? 2 then ([Print usage_message], 1)
  else
    let arg := default ""%string (argv !! 1%nat) in
    match int arg with
    | None => ([Print (invalid_message arg)], 1)
    | Some player_capacity =>
        if (player_capacity <? 100) || (player_capacity >? 50000)
        then ([Print range_message], 1)
        else
          let json_output := bool_decide ("--json"%string ∈ argv) in
          match calculate_resources player_capacity with
          | Raise e =>
              ([Call_calculate_resources player_capacity; Traceback e], 1)
          | Ok r =>
              let c := calculate_costs r in
              let d := if json_output then JsonDocument player_capacity r c
                       else TextReport player_capacity r c in
              ([Call_calculate_resources player_capacity;
                Call_calculate_costs r; PrintDocument d], 0)
          end
    end.

End Main.

Definition is_report (e : event) : bool :=
  match e with PrintDocument _ => true | _ => false end.


(** ** Vocabulary of the statements *)

(** [P] holds on the [n] integers from [lo] on. *)
Fixpoint forall_from (P : Z -> bool) (lo : Z) (n : nat) : bool :=
  match n with
  | O => true
  | S n' => if P lo then forall_from P (lo + 1) n' else false
  end.

(** [P] holds on every integer of [lo, hi]. *)
Definition forall_between (P : Z -> bool) (lo hi : Z) : bool :=
  forall_from P lo (Z.to_nat (hi + 1 - lo)).

(** The ceiling of the exact quotient [n / d], for [0 < d]. *)
Definition ceil_div (n d : Z) : Z := (n + d - 1) / d.

(** [math.ceil(n / d)], which goes through a float, returns that ceiling. *)
Definition ceil_is_exact (d n : Z) : bool :=
  match math_ceil (truediv n d) with
  | Ok c => c =? ceil_div n d
  | Raise _ => false
  end.

(** The capacities [main] lets through. *)
Definition valid_capacity (n : Z) : Prop := 100 <= n <= 50000.

(** The record the function builds once the CPU option and its two memory
    bounds are known, with the ceilings as integers. *)
Definition sized (n rounded_cpu valid_memory_min valid_memory_max : Z)
  : resources :=
  let memory_mb :=
    Z.max valid_memory_min
      (Z.min (Z.max 2 (ceil_div n 50) * 1024) valid_memory_max) in
  {| cpu_vcpu := Z.max 1 (ceil_div n 100);
     cpu_units := rounded_cpu;
     memory_gb := truediv memory_mb 1024;
     memory_mb := memory_mb;
     desired_count := if n <? 5000 then 1 else Z.max 2 (ceil_div n 5000);
     redis_node_type := select_redis_node_type n;
     redis_replica_count := Z.max 0 (ceil_div n 5000 - 1);
     efs_performance_mode :=
       if n >=? 5000 then "maxIO"%string else "generalPurpose"%string;
     nat_gateway_count := if n >=? 10000 then 2 else 1;
     enable_global_accelerator := n >=? 1000 |}.

(** Case analysis on every [<=?] test of the goal. *)
Ltac leb_cases :=
  repeat match goal with
         | |- context [?a <=? ?b] => destruct (Z.leb_spec a b); try lia
         end.

(** [r] with another CPU option. *)
Definition set_cpu_units (u : Z) (r : resources) : resources :=
  {| cpu_vcpu := cpu_vcpu r;
     cpu_units := u;
     memory_gb := memory_gb r;
     memory_mb := memory_mb r;
     desired_count := desired_count r;
     redis_node_type := redis_node_type r;
     redis_replica_count := redis_replica_count r;
     efs_performance_mode := efs_performance_mode r;
     nat_gateway_count := nat_gateway_count r;
     enable_global_accelerator := enable_global_accelerator r |}.

(** The compute cost of the configuration [r] returned for [n] players is
    built from the vCPU count before discretisation and the memory after
    clamping; the CPU option has no part in it. *)
Definition ecs_cost_tracks_request (n : Z) (r : resources) : Prop :=
  cpu_vcpu r = Z.max 1 (ceil_div n 100) /\
  (exists lo hi,
     CPU_MEMORY_MIN !! cpu_units r = Some lo /\
     CPU_MEMORY_MAX !! cpu_units r = Some hi /\
     memory_mb r = Z.max lo (Z.min (Z.max 2 (ceil_div n 50) * 1024) hi) /\
     memory_gb r = truediv (memory_mb r) 1024) /\
  ecs_cost r =
    ((float_of_int (cpu_vcpu r) * 0.04048 + memory_gb r * 0.004445) * 730 *
     float_of_int (desired_count r))%float /\
  forall u, ecs_cost (set_cpu_units u r) = ecs_cost r.

(** [0 <= x] on floats. *)
Definition nonneg (x : float) : bool := (0 <=? x)%float.

(** The six line items of a breakdown, and the six amounts before
    rounding, in the same order. *)
Definition line_items (c : Cost.t) : list float :=
  [Cost.ecs c; Cost.redis c; Cost.efs c; Cost.nat c; Cost.alb c;
   Cost.accelerator c].

Definition unrounded_items (r : resources) : list float :=
  [ecs_cost r; redis_cost r; efs_cost; nat_cost r; alb_cost;
   accelerator_cost r].

(** Every amount of the breakdown for [n] players, rounded or not, is at
    least zero. *)
Definition costs_nonneg (n : Z) : bool :=
  match calculate_resources n with
  | Ok r =>
      forallb nonneg (line_items (calculate_costs r)) &&
      forallb nonneg (unrounded_items r) &&
      nonneg (Cost.total (calculate_costs r))
  | Raise _ => true
  end.

(** The breakdown of [r]: six non-negative line items, each the rounding
    of its unrounded amount, and a total that rounds the sum of the
    unrounded amounts. *)
Definition breakdown_well_formed (r : resources) : Prop :=
  let c := calculate_costs r in
  Forall (fun x => nonneg x = true) (line_items c) /\
  Forall (fun x => nonneg x = true) (unrounded_items r) /\
  line_items c = map (fun x => Py.round x 2) (unrounded_items r) /\
  Cost.total c =
    Py.round (ecs_cost r + redis_cost r + efs_cost + nat_cost r + alb_cost +
              accelerator_cost r)%float 2.

(** The exact value of a finite float, as the pair [(num, k)] that stands
    for [num / 2^k], [0 <= k]. *)
Definition exact_value (x : float) : option (Z * Z) :=
  match Prim2SF x with
  | S754_zero _ => Some (0, 0)
  | S754_finite s m e =>
      let n := if s then Z.neg m else Z.pos m in
      if 0 <=? e then Some (Z.shiftl n e, 0) else Some (n, - e)
  | _ => None
  end.

(** The whole number of cents nearest to the exact value of [v]:
    [floor (100 * v + 1/2)]. *)
Definition cents (v : float) : option Z :=
  match exact_value v with
  | Some (num, k) => Some (Z.shiftr (200 * num + Z.shiftl 1 k) (k + 1))
  | None => None
  end.

(** [v] is [x] rounded to two decimals: [v] is the float that the decimal
    [c / 100] denotes for a whole number of cents [c], and [c / 100] is
    within half a cent of the exact value [num / 2^k] of [x], that is
    [|200 * num - 2 * c * 2^k| <= 2^k].  Nothing here refers to [round]. *)
Definition rounded_to_cents (x v : float) : bool :=
  match exact_value x, cents v with
  | Some (num, k), Some c =>
      (truediv c 100 =? v)%float &&
      (Z.abs (200 * num - Z.shiftl (2 * c) k) <=? Z.shiftl 1 k)
  | _, _ => false
  end.

(** Each of the six line items for [n] players is its unrounded amount
    rounded to two decimals, and so is the total for the float sum of the
    six unrounded amounts. *)
Definition costs_rounded (n : Z) : bool :=
  match calculate_resources n with
  | Ok r =>
      let c := calculate_costs r in
      forallb (fun xv => rounded_to_cents xv.1 xv.2)
        (combine (unrounded_items r) (line_items c)) &&
      rounded_to_cents
        (ecs_cost r + redis_cost r + efs_cost + nat_cost r + alb_cost +
         accelerator_cost r)%float
        (Cost.total c)
  | Raise _ => true
  end.

(** The breakdown of [r] holds two-decimal amounts: each line item is its
    unrounded amount rounded to two decimals, and the total is the sum of
    the six unrounded amounts rounded to two decimals. *)
Definition breakdown_rounded (r : resources) : Prop :=
  let c := calculate_costs r in
  Forall (fun xv => rounded_to_cents xv.1 xv.2 = true)
    (combine (unrounded_items r) (line_items c)) /\
  rounded_to_cents
    (ecs_cost r + redis_cost r + efs_cost + nat_cost r + alb_cost +
     accelerator_cost r)%float
    (Cost.total c) = true.

(** The three kinds of invalid command line. *)
Inductive invalid_input (int : string -> option Z) (argv : list string)
  : Prop :=
| missing_argument :
    (length argv < 2)%nat -> invalid_input int argv
| not_an_integer s :
    argv !! 1%nat = Some s -> int s = None -> invalid_input int argv
| out_of_range s n :
    argv !! 1%nat = Some s -> int s = Some n ->
    n < 100 \/ 50000 < n -> invalid_input int argv.


(** ** Vocabulary of the further properties *)

(** The CPU option of [r] is the smallest one covering its vCPU count. *)
Definition smallest_cpu_option (r : resources) : Prop :=
  cpu_units r ∈ CPU_OPTIONS /\
  cpu_vcpu r * 1024 <= cpu_units r /\
  forall o, o ∈ CPU_OPTIONS -> cpu_vcpu r * 1024 <= o -> cpu_units r <= o.

(** The CPU option by capacity band, as the discretisation works out. *)
Definition cpu_option_of (n : Z) : Z :=
  if n <=? 100 then 1024
  else if n <=? 200 then 2048
  else if n <=? 400 then 4096
  else if n <=? 800 then 8192
  else 16384.

(** The memory of [r] is the clamped request for [n] players and lies
    between the two bounds of its CPU option. *)
Definition memory_within_bounds (n : Z) (r : resources) : Prop :=
  exists lo hi,
    CPU_MEMORY_MIN !! cpu_units r = Some lo /\
    CPU_MEMORY_MAX !! cpu_units r = Some hi /\
    memory_mb r = Z.max lo (Z.min (Z.max 2 (ceil_div n 50) * 1024) hi) /\
    lo <= memory_mb r <= hi.

(** The memory of [r] is the lower bound of its CPU option, twice the CPU
    units, and a whole number of GB. *)
Definition memory_is_minimum (r : resources) : Prop :=
  CPU_MEMORY_MIN !! cpu_units r = Some (memory_mb r) /\
  memory_mb r = 2 * cpu_units r /\
  memory_gb r = float_of_int (memory_mb r / 1024).

(** The five sizes of [ra] are at most those of [rb]. *)
Definition sizes_le (ra rb : resources) : Prop :=
  cpu_units ra <= cpu_units rb /\
  memory_mb ra <= memory_mb rb /\
  desired_count ra <= desired_count rb /\
  nat_gateway_count ra <= nat_gateway_count rb /\
  redis_replica_count ra <= redis_replica_count rb.

(** A configuration with one task, one Redis node, one NAT gateway and
    general purpose storage, as [n] players get it. *)
Definition single_node (n : Z) (r : resources) : Prop :=
  desired_count r = 1 /\
  redis_replica_count r = 0 /\
  nat_gateway_count r = 1 /\
  efs_performance_mode r = "generalPurpose"%string /\
  redis_node_type r =
    (if n <=? 500 then "cache.t3.micro"%string else "cache.t3.small"%string) /\
  enable_global_accelerator r = (1000 <=? n).

(** The three float ceilings of the sizing are the exact ones. *)
Definition ceilings_exact (n : Z) : Prop :=
  math_ceil (truediv n 100) = Ok (ceil_div n 100) /\
  math_ceil (truediv n 50) = Ok (ceil_div n 50) /\
  math_ceil (truediv n 5000) = Ok (ceil_div n 5000).

(** The five line items that do not depend on CPU or memory, for [n]
    players. *)
Definition fixed_line_items (n : Z) (c : Cost.t) : Prop :=
  Cost.efs c = 30%float /\
  Cost.alb c = 16.2%float /\
  Cost.nat c = 32.4%float /\
  Cost.redis c = (if n <=? 500 then 12.41%float else 24.82%float) /\
  Cost.accelerator c = (if 1000 <=? n then 7.2%float else 0%float).

(** The float sum of the six rounded line items, left to right. *)
Definition sum_of_line_items (c : Cost.t) : float :=
  (Cost.ecs c + Cost.redis c + Cost.efs c + Cost.nat c + Cost.alb c +
   Cost.accelerator c)%float.

(** The total printed for [n] players is the sum of the printed line
    items, rounded to two decimals. *)
Definition total_matches_items (n : Z) : bool :=
  match calculate_resources n with
  | Ok r =>
      let c := calculate_costs r in
      (Cost.total c =? Py.round (sum_of_line_items c) 2)%float
  | Raise _ => true
  end.

(** Membership of a given number in [CPU_OPTIONS], by evaluation. *)
Ltac is_cpu_option :=
  apply list_elem_of_In; unfold CPU_OPTIONS; cbn [In]; tauto.

(** The successful run on [n] players from the command line [argv]. *)
Definition success_run (argv : list string) (n : Z) (r : resources)
  : list event * Z :=
  let c := calculate_costs r in
  ([Call_calculate_resources n; Call_calculate_costs r;
    PrintDocument (if bool_decide ("--json"%string ∈ argv)
                   then JsonDocument n r c else TextReport n r c)], 0).

(** * Proofs *)

Example calculate_resources_500 :
  calculate_resources 500 =
  Ok (Resources 5 8192 16 16384 1 "cache.t3.micro" 0 "generalPurpose" 1 false).
Proof. vm_compute. reflexivity. Qed.

(** ** Checking a decidable property on every integer of an interval *)

Lemma forall_from_spec P n : forall lo z,
  forall_from P lo n = true -> lo <= z < lo + Z.of_nat n -> P z = true.
Proof.
  induction n as [|n IH]; intros lo z Hall Hz; [lia|].
  cbn [forall_from] in Hall. destruct (P lo) eqn:Hlo; [|discriminate].
  destruct (Z.eq_dec z lo) as [->|Hne]; [assumption|].
  apply (IH (lo + 1)); [assumption | lia].
Qed.

Lemma forall_between_spec P lo hi z :
  forall_between P lo hi = true -> lo <= z <= hi -> P z = true.
Proof.
  unfold forall_between. intros Hall Hz.
  apply (forall_from_spec P _ lo z Hall). lia.
Qed.

(** ** The float quotients of the script have the integer ceilings

    [math.ceil(player_capacity / d)] goes through a float.  On the capacities
    the command line admits the float quotient is close enough to the exact
    one for its ceiling to be the integer ceiling [(n + d - 1) / d]. *)

Lemma ceil_is_exact_spec d n :
  ceil_is_exact d n = true -> math_ceil (truediv n d) = Ok (ceil_div n d).
Proof.
  unfold ceil_is_exact. destruct (math_ceil _) as [c|e]; [|discriminate].
  intros H. apply Z.eqb_eq in H. now subst.
Qed.

Lemma math_ceil_100 n :
  valid_capacity n -> math_ceil (truediv n 100) = Ok (ceil_div n 100).
Proof.
  intros H. apply ceil_is_exact_spec.
  apply (forall_between_spec (ceil_is_exact 100) 100 50000); [|exact H].
  vm_cast_no_check (eq_refl true).
Qed.

Lemma math_ceil_50 n :
  valid_capacity n -> math_ceil (truediv n 50) = Ok (ceil_div n 50).
Proof.
  intros H. apply ceil_is_exact_spec.
  apply (forall_between_spec (ceil_is_exact 50) 100 50000); [|exact H].
  vm_cast_no_check (eq_refl true).
Qed.

Lemma math_ceil_5000 n :
  valid_capacity n -> math_ceil (truediv n 5000) = Ok (ceil_div n 5000).
Proof.
  intros H. apply ceil_is_exact_spec.
  apply (forall_between_spec (ceil_is_exact 5000) 100 50000); [|exact H].
  vm_cast_no_check (eq_refl true).
Qed.

(** ** Lists: [min] of a filtered list *)

Lemma fold_left_min_le (l : list Z) : forall x,
  fold_left Z.min l x <= x /\ forall o, o ∈ l -> fold_left Z.min l x <= o.
Proof.
  induction l as [|y l IH]; intros x; cbn [fold_left].
  - split; [lia|]. intros o Ho. now apply elem_of_nil in Ho.
  - destruct (IH (Z.min x y)) as [H1 H2]. split; [lia|].
    intros o Ho. apply elem_of_cons in Ho as [->|Ho]; [lia | auto].
Qed.

Lemma fold_left_min_elem (l : list Z) : forall x,
  fold_left Z.min l x = x \/ fold_left Z.min l x ∈ l.
Proof.
  induction l as [|y l IH]; intros x; cbn [fold_left]; [now left|].
  destruct (IH (Z.min x y)) as [H|H].
  - rewrite H. destruct (Z.min_spec x y) as [[_ ->]|[_ ->]];
      [now left | right; apply elem_of_cons; now left].
  - right. apply elem_of_cons. now right.
Qed.

Lemma min_Ok (l : list Z) m :
  Py.min l = Ok m -> m ∈ l /\ forall o, o ∈ l -> m <= o.
Proof.
  destruct l as [|x l]; [discriminate|]. intros [= <-]. split.
  - apply elem_of_cons.
    destruct (fold_left_min_elem l x) as [->|H]; [now left | now right].
  - intros o Ho. destruct (fold_left_min_le l x) as [H1 H2].
    apply elem_of_cons in Ho as [->|Ho]; auto.
Qed.

Lemma min_Raise (l : list Z) e : Py.min l = Raise e -> l = [] /\ e = ValueError.
Proof. destruct l; [intros [= <-]; auto | discriminate]. Qed.

(** The smallest member of [l] that is at least [x]. *)
Lemma min_filter_Ok (l : list Z) x m :
  Py.min (filter (fun c => c >= x) l) = Ok m ->
  m ∈ l /\ x <= m /\ forall o, o ∈ l -> x <= o -> m <= o.
Proof.
  intros H. apply min_Ok in H as [Hin Hle].
  apply list_elem_of_filter in Hin as [Hx Hin]. repeat split; [assumption|lia|].
  intros o Ho Hxo. apply Hle, list_elem_of_filter. split; [lia|assumption].
Qed.

Lemma min_filter_mono (l : list Z) x y mx my :
  x <= y ->
  Py.min (filter (fun c => c >= x) l) = Ok mx ->
  Py.min (filter (fun c => c >= y) l) = Ok my ->
  mx <= my.
Proof.
  intros Hxy Hx Hy. apply min_filter_Ok in Hx as (_ & _ & Hx).
  apply min_filter_Ok in Hy as (Hin & Hle & _). apply Hx; [assumption|lia].
Qed.

(** ** [calculate_resources] on the capacities the command line admits *)

Lemma calculate_resources_valid n :
  valid_capacity n ->
  calculate_resources n =
  (rounded_cpu ←
     Py.min (filter (fun cpu => cpu >= Z.max 1 (ceil_div n 100) * 1024)
               CPU_OPTIONS);
   valid_memory_min ← subscript CPU_MEMORY_MIN rounded_cpu;
   valid_memory_max ← subscript CPU_MEMORY_MAX rounded_cpu;
   Ok (sized n rounded_cpu valid_memory_min valid_memory_max)).
Proof.
  intros Hn. unfold calculate_resources.
  rewrite (math_ceil_100 n Hn), (math_ceil_50 n Hn), (math_ceil_5000 n Hn).
  unfold sized. destruct (n <? 5000); reflexivity.
Qed.

(** Every CPU option has both memory bounds, the lower below the upper. *)
Lemma cpu_option_bounds c :
  c ∈ CPU_OPTIONS ->
  exists lo hi,
    CPU_MEMORY_MIN !! c = Some lo /\ CPU_MEMORY_MAX !! c = Some hi /\ lo <= hi.
Proof.
  unfold CPU_OPTIONS. intros H.
  repeat (apply elem_of_cons in H as [->|H];
          [eexists _, _; repeat split; cbn; lia|]).
  now apply elem_of_nil in H.
Qed.

(** Both tables grow with the CPU option. *)
Lemma cpu_option_bounds_mono c1 c2 lo1 hi1 lo2 hi2 :
  c1 ∈ CPU_OPTIONS -> c2 ∈ CPU_OPTIONS -> c1 <= c2 ->
  CPU_MEMORY_MIN !! c1 = Some lo1 -> CPU_MEMORY_MAX !! c1 = Some hi1 ->
  CPU_MEMORY_MIN !! c2 = Some lo2 -> CPU_MEMORY_MAX !! c2 = Some hi2 ->
  lo1 <= lo2 /\ hi1 <= hi2.
Proof.
  unfold CPU_OPTIONS. intros H1 H2.
  repeat (apply elem_of_cons in H1 as [->|H1]);
    [..|now apply elem_of_nil in H1];
    (repeat (apply elem_of_cons in H2 as [->|H2]);
     [..|now apply elem_of_nil in H2]);
    intros Hle; try lia; intros A B C D;
    vm_compute in A, B, C, D; simplify_eq; lia.
Qed.

(** What a normal return on a valid capacity looks like. *)
Lemma calculate_resources_Ok n r :
  valid_capacity n -> calculate_resources n = Ok r ->
  exists rounded_cpu lo hi,
    Py.min (filter (fun cpu => cpu >= Z.max 1 (ceil_div n 100) * 1024)
              CPU_OPTIONS) = Ok rounded_cpu /\
    CPU_MEMORY_MIN !! rounded_cpu = Some lo /\
    CPU_MEMORY_MAX !! rounded_cpu = Some hi /\
    r = sized n rounded_cpu lo hi.
Proof.
  intros Hn H. rewrite (calculate_resources_valid n Hn) in H.
  unfold mbind, result_bind, subscript in H.
  destruct (Py.min _) as [c|e] eqn:Hmin; [|discriminate H].
  destruct (CPU_MEMORY_MIN !! c) as [lo|] eqn:Hlo; [|discriminate H].
  destruct (CPU_MEMORY_MAX !! c) as [hi|] eqn:Hhi; [|discriminate H].
  injection H as <-. eauto 10.
Qed.

(** Above 1600 players no CPU option is large enough: the filtered list is
    empty and [min] raises. *)
Lemma no_cpu_option n :
  1600 < n ->
  filter (fun cpu => cpu >= Z.max 1 (ceil_div n 100) * 1024) CPU_OPTIONS = [].
Proof.
  intros Hn. assert (17 <= ceil_div n 100).
  { unfold ceil_div. apply Z.div_le_lower_bound; lia. }
  unfold CPU_OPTIONS.
  repeat (rewrite filter_cons_False by lia). reflexivity.
Qed.

Lemma calculate_resources_raises n :
  valid_capacity n -> 1600 < n -> calculate_resources n = Raise ValueError.
Proof.
  intros Hn Hbig. rewrite (calculate_resources_valid n Hn).
  rewrite (no_cpu_option n Hbig). reflexivity.
Qed.

(** Up to 1600 players the function returns. *)
Lemma calculate_resources_returns n :
  valid_capacity n -> n <= 1600 -> returns (calculate_resources n).
Proof.
  intros Hn Hsmall. rewrite (calculate_resources_valid n Hn).
  assert (ceil_div n 100 <= 16).
  { unfold ceil_div. apply Z.lt_succ_r, Z.div_lt_upper_bound; lia. }
  destruct (Py.min _) as [c|e] eqn:Hmin.
  - apply min_filter_Ok in Hmin as (Hin & _ & _).
    destruct (cpu_option_bounds c Hin) as (lo & hi & Hlo & Hhi & _).
    unfold mbind, result_bind, subscript. rewrite Hlo, Hhi.
    eexists; reflexivity.
  - apply min_Raise in Hmin as [Hnil _]. exfalso.
    apply (filter_nil_not_elem_of _ _ 16384 Hnil); [cbn beta; lia|].
    unfold CPU_OPTIONS. set_solver.
Qed.

(** ** Properties of the configurations the function returns *)

(** The CPU option is the smallest one that covers the raw units. *)
Lemma cpu_units_smallest_option n r :
  valid_capacity n -> calculate_resources n = Ok r ->
  cpu_vcpu r = Z.max 1 (ceil_div n 100) /\
  cpu_units r ∈ CPU_OPTIONS /\
  cpu_vcpu r * 1024 <= cpu_units r /\
  forall o, o ∈ CPU_OPTIONS -> cpu_vcpu r * 1024 <= o -> cpu_units r <= o.
Proof.
  intros Hn H.
  destruct (calculate_resources_Ok n r Hn H) as (c & lo & hi & Hmin & _ & _ & ->).
  apply min_filter_Ok in Hmin as (Hin & Hle & Hleast). cbn. auto.
Qed.

(** The Redis bands of the [if]/[elif] chain, upper ends included. *)
Lemma select_redis_node_type_bands n :
  (n <= 500 -> select_redis_node_type n = "cache.t3.micro"%string) /\
  (500 < n <= 2000 -> select_redis_node_type n = "cache.t3.small"%string) /\
  (2000 < n <= 5000 -> select_redis_node_type n = "cache.t3.medium"%string) /\
  (5000 < n <= 10000 -> select_redis_node_type n = "cache.t3.large"%string) /\
  (10000 < n <= 20000 -> select_redis_node_type n = "cache.r6g.large"%string) /\
  (20000 < n -> select_redis_node_type n = "cache.r6g.xlarge"%string).
Proof.
  unfold select_redis_node_type.
  repeat split; intros H; leb_cases; reflexivity.
Qed.

(** A normal return carries the Redis type of the chain, whatever the
    capacity. *)
Lemma calculate_resources_redis n r :
  calculate_resources n = Ok r ->
  redis_node_type r = select_redis_node_type n.
Proof.
  unfold calculate_resources, mbind, result_bind. intros H.
  repeat (case_match; try discriminate H); injection H as <-; reflexivity.
Qed.

(** The memory is the clamped request and lies between the bounds of the
    chosen CPU option. *)
Lemma memory_mb_clamped n r :
  valid_capacity n -> calculate_resources n = Ok r ->
  exists lo hi,
    CPU_MEMORY_MIN !! cpu_units r = Some lo /\
    CPU_MEMORY_MAX !! cpu_units r = Some hi /\
    memory_mb r = Z.max lo (Z.min (Z.max 2 (ceil_div n 50) * 1024) hi) /\
    lo <= memory_mb r <= hi /\
    memory_gb r = truediv (memory_mb r) 1024.
Proof.
  intros Hn H.
  destruct (calculate_resources_Ok n r Hn H)
    as (c & lo & hi & Hmin & Hlo & Hhi & ->).
  apply min_filter_Ok in Hmin as (Hin & _ & _).
  destruct (cpu_option_bounds c Hin) as (lo' & hi' & Hlo' & Hhi' & Hle).
  assert (lo' = lo) as -> by congruence. assert (hi' = hi) as -> by congruence.
  exists lo, hi. cbn. repeat split; auto; lia.
Qed.

Lemma ceil_div_mono a b d : 0 < d -> a <= b -> ceil_div a d <= ceil_div b d.
Proof. intros Hd Hab. unfold ceil_div. apply Z.div_le_mono; lia. Qed.

(** Between two capacities on which the function returns, the five sizes
    do not decrease. *)
Lemma calculate_resources_mono a b ra rb :
  valid_capacity a -> valid_capacity b -> a <= b ->
  calculate_resources a = Ok ra -> calculate_resources b = Ok rb ->
  cpu_units ra <= cpu_units rb /\
  memory_mb ra <= memory_mb rb /\
  desired_count ra <= desired_count rb /\
  nat_gateway_count ra <= nat_gateway_count rb /\
  redis_replica_count ra <= redis_replica_count rb.
Proof.
  intros Ha Hb Hab HA HB.
  destruct (calculate_resources_Ok a ra Ha HA)
    as (ca & loa & hia & Hmina & Hloa & Hhia & ->).
  destruct (calculate_resources_Ok b rb Hb HB)
    as (cb & lob & hib & Hminb & Hlob & Hhib & ->).
  pose proof (ceil_div_mono a b 100 ltac:(lia) Hab) as H100.
  pose proof (ceil_div_mono a b 50 ltac:(lia) Hab) as H50.
  pose proof (ceil_div_mono a b 5000 ltac:(lia) Hab) as H5000.
  assert (ca <= cb) as Hc.
  { eapply min_filter_mono; [|exact Hmina|exact Hminb]. lia. }
  apply min_filter_Ok in Hmina as (Hina & _ & _).
  apply min_filter_Ok in Hminb as (Hinb & _ & _).
  destruct (cpu_option_bounds_mono ca cb loa hia lob hib) as [Hlo Hhi]; auto.
  cbn. repeat split; try lia.
  - destruct (Z.ltb_spec a 5000), (Z.ltb_spec b 5000); lia.
  - destruct (Z.geb_spec a 10000), (Z.geb_spec b 10000); lia.
Qed.

(** ** Runs of [main] on a well-formed capacity argument *)

Lemma main_checked int argv s n :
  argv !! 1%nat = Some s -> int s = Some n -> valid_capacity n ->
  main int argv =
  match calculate_resources n with
  | Raise e => ([Call_calculate_resources n; Traceback e], 1)
  | Ok r =>
      let c := calculate_costs r in
      ([Call_calculate_resources n; Call_calculate_costs r;
        PrintDocument (if bool_decide ("--json"%string ∈ argv)
                       then JsonDocument n r c else TextReport n r c)], 0)
  end.
Proof.
  intros Hs Hint [Hlo Hhi]. unfold main.
  assert (2 <= length argv)%nat as Hlen.
  { apply lookup_lt_Some in Hs. lia. }
  destruct (Z.ltb_spec (Z.of_nat (length argv)) 2); [lia|].
  rewrite Hs. change (default ""%string (Some s)) with s. rewrite Hint.
  destruct (Z.ltb_spec n 100); [lia|].
  destruct (Z.gtb_spec n 50000); [lia|]. reflexivity.
Qed.

(** Up to 1600 players the run prints its document and ends with status 0. *)
Lemma main_reports int argv s n :
  argv !! 1%nat = Some s -> int s = Some n -> 100 <= n <= 1600 ->
  exists d events,
    main int argv = (events ++ [PrintDocument d], 0) /\
    existsb is_report events = false.
Proof.
  intros Hs Hint Hn. assert (valid_capacity n) as Hv by (unfold valid_capacity; lia).
  rewrite (main_checked int argv s n Hs Hint Hv).
  destruct (calculate_resources_returns n Hv) as [r ->]; [lia|].
  eexists _, [_; _]. split; reflexivity.
Qed.

(** Above 1600 players the run ends in a traceback with status 1, and
    nothing is printed on standard output. *)
Lemma main_traceback int argv s n :
  argv !! 1%nat = Some s -> int s = Some n -> 1600 < n <= 50000 ->
  main int argv = ([Call_calculate_resources n; Traceback ValueError], 1).
Proof.
  intros Hs Hint Hn. assert (valid_capacity n) as Hv by (unfold valid_capacity; lia).
  rewrite (main_checked int argv s n Hs Hint Hv).
  rewrite (calculate_resources_raises n Hv); [reflexivity|lia].
Qed.

(** ** The claims *)

(** C1 (the code departs from it).  The claim: on every capacity in
    [100, 50000] sizing and costing complete and the command prints its
    report with status 0, [min] never meeting an empty list.  At 1601
    players the raw CPU units are 17 * 1024, no option of [CPU_OPTIONS]
    reaches them, [min] is applied to the empty list and raises
    [ValueError]; nothing catches it, so the command ends with a traceback
    and status 1. *)
Theorem C1_min_of_empty_list_at_1601 :
  valid_capacity 1601 /\
  filter (fun cpu => cpu >= 17 * 1024) CPU_OPTIONS = [] /\
  calculate_resources 1601 = Raise ValueError /\
  main int_ascii ["scripts/calculate-cost.py"; "1601"]%string =
    ([Call_calculate_resources 1601; Traceback ValueError], 1).
Proof.
  split; [unfold valid_capacity; lia|].
  split; [reflexivity|]. split; vm_compute; reflexivity.
Qed.

(** C2 (the code departs from it).  The claim: on every capacity in
    [100, 50000] the function returns [cpu_units], the smallest option at
    least [cpu_vcpu * 1024].  At 5000 players [cpu_vcpu] would be 50 and the
    raw units 51200; every option is smaller, so there is no such member
    and the function raises instead of returning. *)
Theorem C2_no_cpu_option_at_5000 :
  valid_capacity 5000 /\
  Z.max 1 (ceil_div 5000 100) * 1024 = 51200 /\
  Forall (fun cpu => cpu < 51200) CPU_OPTIONS /\
  calculate_resources 5000 = Raise ValueError.
Proof.
  split; [unfold valid_capacity; lia|]. split; [reflexivity|]. split.
  - unfold CPU_OPTIONS. repeat constructor.
  - vm_compute. reflexivity.
Qed.

(** C3 (the code departs from it).  The claim lists the Redis type returned
    at ten boundary capacities.  The function returns the listed type at 500
    and 501, but at each of the eight boundaries from 2000 on it raises
    [ValueError] before the Redis chain is reached. *)
Theorem C3_redis_boundaries_not_reached :
  redis_node_type <$> calculate_resources 500 = Ok "cache.t3.micro"%string /\
  redis_node_type <$> calculate_resources 501 = Ok "cache.t3.small"%string /\
  Forall (fun n => valid_capacity n /\ calculate_resources n = Raise ValueError)
    [2000; 2001; 5000; 5001; 10000; 10001; 20000; 20001].
Proof.
  split; [vm_compute; reflexivity|]. split; [vm_compute; reflexivity|].
  repeat constructor; try (vm_compute; discriminate); vm_compute; reflexivity.
Qed.

(** C4 (the code departs from it).  The claim: on every capacity in
    [100, 50000] the requested memory is clamped into the bounds of the
    selected CPU option and returned.  At 2500 players the request is
    50 GB = 51200 MB, but 25 * 1024 raw units select no CPU option: there
    are no bounds to clamp into and no [memory_mb] is returned. *)
Theorem C4_no_memory_at_2500 :
  valid_capacity 2500 /\
  Z.max 2 (ceil_div 2500 50) * 1024 = 51200 /\
  Py.min (filter (fun cpu => cpu >= 25 * 1024) CPU_OPTIONS) = Raise ValueError /\
  memory_mb <$> calculate_resources 2500 = Raise ValueError.
Proof.
  split; [unfold valid_capacity; lia|]. split; [reflexivity|].
  split; [reflexivity|]. vm_compute. reflexivity.
Qed.

(** C5 (the code departs from it).  The claim compares the configurations
    returned for any [a <= b] in [100, 50000].  For [a = 100] and
    [b = 50000] the function returns a configuration for [a] and raises
    [ValueError] for [b]: there is no second configuration to compare. *)
Theorem C5_no_configuration_to_compare :
  valid_capacity 100 /\ valid_capacity 50000 /\ 100 <= 50000 /\
  cpu_units <$> calculate_resources 100 = Ok 1024 /\
  calculate_resources 50000 = Raise ValueError.
Proof.
  repeat split; try (unfold valid_capacity; lia); vm_compute; congruence.
Qed.

(** C8 (the code departs from it).  The claim: at 50000 players the
    function returns 10 tasks, [cache.r6g.xlarge], 9 replicas, 2 NAT
    gateways and [maxIO].  The rules give these values whatever CPU option
    is chosen, but 500 * 1024 raw units select none and the function raises
    [ValueError] at the [min], returning nothing. *)
Theorem C8_raises_at_50000 :
  calculate_resources 50000 = Raise ValueError /\
  forall c lo hi,
    let r := sized 50000 c lo hi in
    desired_count r = 10 /\
    redis_node_type r = "cache.r6g.xlarge"%string /\
    redis_replica_count r = 9 /\
    nat_gateway_count r = 2 /\
    efs_performance_mode r = "maxIO"%string.
Proof.
  split; [vm_compute; reflexivity|].
  intros c lo hi. cbn. repeat split; reflexivity.
Qed.

(** C10.  Whenever [calculate_resources] returns, its Redis type is a key
    of [REDIS_HOURLY_PRICING]: the lookup in [calculate_costs] finds a price
    and the default of [get] plays no part. *)
Theorem C10_redis_type_is_priced n r :
  calculate_resources n = Ok r ->
  exists price,
    REDIS_HOURLY_PRICING !! redis_node_type r = Some price /\
    redis_hourly r = price /\
    forall dflt, Py.get REDIS_HOURLY_PRICING (redis_node_type r) dflt = price.
Proof.
  intros H. pose proof (calculate_resources_redis n r H) as Hr.
  unfold redis_hourly, Py.get. rewrite Hr. unfold select_redis_node_type.
  repeat case_match; eexists;
    (split; [reflexivity | split; [reflexivity | intros; reflexivity]]).
Qed.

Lemma C10_redis_type_is_priced_witness :
  exists price,
    REDIS_HOURLY_PRICING !! "cache.t3.micro"%string = Some price /\
    redis_hourly
      (Resources 5 8192 16 16384 1 "cache.t3.micro" 0 "generalPurpose" 1 false)
    = price /\
    forall dflt,
      Py.get REDIS_HOURLY_PRICING "cache.t3.micro"%string dflt = price.
Proof.
  apply (C10_redis_type_is_priced 500
           (Resources 5 8192 16 16384 1 "cache.t3.micro" 0 "generalPurpose"
              1 false)).
  vm_compute. reflexivity.
Defined.

(** C7.  For a configuration produced from a capacity in [100, 50000] the
    unrounded compute cost is
    [(cpu_vcpu * 0.04048 + memory_gb * 0.004445) * 730 * desired_count],
    with the pre-discretisation vCPU count and the post-clamp memory; the
    discretised [cpu_units] does not enter it. *)
Theorem C7_ecs_cost_formula n r :
  valid_capacity n -> calculate_resources n = Ok r ->
  ecs_cost_tracks_request n r.
Proof.
  intros Hn H. unfold ecs_cost_tracks_request.
  destruct (cpu_units_smallest_option n r Hn H) as (Hv & _).
  destruct (memory_mb_clamped n r Hn H) as (lo & hi & Hlo & Hhi & Hmb & _ & Hgb).
  split; [exact Hv|]. split; [exists lo, hi; auto|].
  split; reflexivity.
Qed.

Lemma C7_ecs_cost_formula_witness :
  valid_capacity 500 /\
  ecs_cost_tracks_request 500
    (Resources 5 8192 16 16384 1 "cache.t3.micro" 0 "generalPurpose" 1 false).
Proof.
  assert (valid_capacity 500) as Hv by (unfold valid_capacity; lia).
  split; [exact Hv|].
  apply (C7_ecs_cost_formula 500 _ Hv). vm_compute. reflexivity.
Defined.

Lemma forallb_Forall {A} (f : A -> bool) (l : list A) :
  forallb f l = true -> Forall (fun x => f x = true) l.
Proof.
  induction l as [|x l IH]; cbn; intros H; constructor;
    apply andb_prop in H as [Hx Hl]; auto.
Qed.

(** C6.  For a configuration produced from a capacity in [100, 50000] the
    six line items are non-negative, each is its unrounded amount rounded to
    two decimals, and the total is the sum of the six unrounded amounts
    rounded to two decimals.  That an amount is a rounding to two decimals
    is stated on the exact values of the floats ([breakdown_rounded]), apart
    from the function that does the rounding. *)
Theorem C6_cost_breakdown n r :
  valid_capacity n -> calculate_resources n = Ok r ->
  breakdown_well_formed r /\ breakdown_rounded r.
Proof.
  intros Hn H.
  assert (n <= 1600) as Hsmall.
  { destruct (Z.le_gt_cases n 1600) as [|Hbig]; [assumption|].
    rewrite (calculate_resources_raises n Hn) in H by lia. discriminate H. }
  assert (costs_nonneg n = true) as Hc.
  { apply (forall_between_spec costs_nonneg 100 1600);
      [|unfold valid_capacity in Hn; lia].
    vm_cast_no_check (eq_refl true). }
  assert (costs_rounded n = true) as Hd.
  { apply (forall_between_spec costs_rounded 100 1600);
      [|unfold valid_capacity in Hn; lia].
    vm_cast_no_check (eq_refl true). }
  unfold costs_nonneg in Hc. rewrite H in Hc.
  apply andb_prop in Hc as [Hc _]. apply andb_prop in Hc as [Hr Hu].
  unfold costs_rounded in Hd. rewrite H in Hd.
  apply andb_prop in Hd as [Hitems Htotal].
  split.
  - unfold breakdown_well_formed.
    split; [exact (forallb_Forall _ _ Hr)|].
    split; [exact (forallb_Forall _ _ Hu)|]. split; reflexivity.
  - unfold breakdown_rounded.
    split; [exact (forallb_Forall _ _ Hitems) | exact Htotal].
Qed.

Lemma C6_cost_breakdown_witness :
  valid_capacity 500 /\
  breakdown_well_formed
    (Resources 5 8192 16 16384 1 "cache.t3.micro" 0 "generalPurpose" 1 false)
  /\
  breakdown_rounded
    (Resources 5 8192 16 16384 1 "cache.t3.micro" 0 "generalPurpose" 1 false).
Proof.
  assert (valid_capacity 500) as Hv by (unfold valid_capacity; lia).
  split; [exact Hv|].
  apply (C6_cost_breakdown 500 _ Hv). vm_compute. reflexivity.
Defined.




(** ** Further properties of the sizing *)

Lemma ceil_div_bounds n d k :
  0 < d -> (k - 1) * d < n <= k * d -> ceil_div n d = k.
Proof.
  intros Hd Hn. unfold ceil_div. symmetry.
  apply (Z.div_unique _ _ _ (n + d - 1 - k * d)); lia.
Qed.

Lemma ceil_div_range n d lo hi :
  0 < d -> (lo - 1) * d < n <= hi * d -> lo <= ceil_div n d <= hi.
Proof.
  intros Hd Hn. unfold ceil_div. split.
  - apply Z.div_le_lower_bound; lia.
  - apply Z.lt_succ_r, Z.div_lt_upper_bound; lia.
Qed.

Lemma calculate_resources_Ok_small n r :
  valid_capacity n -> calculate_resources n = Ok r -> n <= 1600.
Proof.
  intros Hn H. destruct (Z.le_gt_cases n 1600) as [|Hbig]; [assumption|].
  rewrite (calculate_resources_raises n Hn) in H by lia. discriminate H.
Qed.

(** X1.  On a capacity of [100, 50000] the function returns exactly when
    the capacity is at most 1600, and raises [ValueError] exactly when it is
    above. *)
Theorem X1_returns_iff_at_most_1600 n :
  valid_capacity n ->
  (returns (calculate_resources n) <-> n <= 1600) /\
  (calculate_resources n = Raise ValueError <-> 1600 < n).
Proof.
  intros Hn. split; split.
  - intros [r Hr]. exact (calculate_resources_Ok_small n r Hn Hr).
  - exact (calculate_resources_returns n Hn).
  - intros Hraise. destruct (Z.le_gt_cases n 1600) as [Hsmall|]; [|lia].
    destruct (calculate_resources_returns n Hn Hsmall) as [r Hr].
    congruence.
  - exact (calculate_resources_raises n Hn).
Qed.

Lemma X1_returns_iff_at_most_1600_witness :
  (returns (calculate_resources 1600) <-> 1600 <= 1600) /\
  (calculate_resources 1600 = Raise ValueError <-> 1600 < 1600).
Proof.
  apply (X1_returns_iff_at_most_1600 1600). unfold valid_capacity. lia.
Defined.

(** The CPU option by capacity band. *)
Lemma cpu_units_by_band n r :
  valid_capacity n -> calculate_resources n = Ok r ->
  cpu_vcpu r = ceil_div n 100 /\ cpu_units r = cpu_option_of n.
Proof.
  intros Hn H. pose proof (calculate_resources_Ok_small n r Hn H) as Hsmall.
  destruct (cpu_units_smallest_option n r Hn H) as (Hv & Hin & Hle & Hleast).
  destruct Hn as [Hlo _].
  assert (cpu_vcpu r = ceil_div n 100) as Hv'.
  { pose proof (ceil_div_range n 100 1 16 ltac:(lia) ltac:(lia)). lia. }
  split; [exact Hv'|].
  assert (forall t, t ∈ CPU_OPTIONS ->
            cpu_vcpu r * 1024 <= t < 2 * (cpu_vcpu r * 1024) ->
            cpu_units r = t) as Hpick.
  { intros t Ht [Ht1 Ht2]. pose proof (Hleast t Ht Ht1) as Hup.
    unfold CPU_OPTIONS in Hin, Ht.
    repeat (apply elem_of_cons in Hin as [Hin|Hin]; [rewrite Hin in *|]);
      try (now apply elem_of_nil in Hin);
      (repeat (apply elem_of_cons in Ht as [->|Ht]);
       [..|now apply elem_of_nil in Ht]); lia. }
  rewrite Hv' in Hpick. unfold cpu_option_of.
  destruct (Z.leb_spec n 100).
  { pose proof (ceil_div_range n 100 1 1 ltac:(lia) ltac:(lia)).
    apply Hpick; [is_cpu_option | lia]. }
  destruct (Z.leb_spec n 200).
  { pose proof (ceil_div_range n 100 2 2 ltac:(lia) ltac:(lia)).
    apply Hpick; [is_cpu_option | lia]. }
  destruct (Z.leb_spec n 400).
  { pose proof (ceil_div_range n 100 3 4 ltac:(lia) ltac:(lia)).
    apply Hpick; [is_cpu_option | lia]. }
  destruct (Z.leb_spec n 800).
  { pose proof (ceil_div_range n 100 5 8 ltac:(lia) ltac:(lia)).
    apply Hpick; [is_cpu_option | lia]. }
  pose proof (ceil_div_range n 100 9 16 ltac:(lia) ltac:(lia)).
  apply Hpick; [is_cpu_option | lia].
Qed.

(** X2.  A configuration returned for a capacity of [100, 50000] has
    [cpu_vcpu = ceil(n / 100)] (the floor at 1 never applies) and as
    [cpu_units] the smallest CPU option covering [cpu_vcpu * 1024]: 1024 up
    to 100 players, 2048 up to 200, 4096 up to 400, 8192 up to 800 and
    16384 above; the options 256 and 512 are never chosen. *)
Theorem X2_cpu_option_by_band n r :
  valid_capacity n -> calculate_resources n = Ok r ->
  cpu_vcpu r = ceil_div n 100 /\
  smallest_cpu_option r /\
  cpu_units r = cpu_option_of n.
Proof.
  intros Hn H.
  destruct (cpu_units_by_band n r Hn H) as [Hv Hu].
  destruct (cpu_units_smallest_option n r Hn H) as (_ & Hin & Hle & Hleast).
  repeat split; assumption.
Qed.

Lemma X2_cpu_option_by_band_witness :
  cpu_vcpu (Resources 5 8192 16 16384 1 "cache.t3.micro" 0 "generalPurpose" 1 false)
  = ceil_div 500 100 /\
  smallest_cpu_option
    (Resources 5 8192 16 16384 1 "cache.t3.micro" 0 "generalPurpose" 1 false) /\
  cpu_units (Resources 5 8192 16 16384 1 "cache.t3.micro" 0 "generalPurpose" 1 false)
  = cpu_option_of 500.
Proof.
  apply (X2_cpu_option_by_band 500); [unfold valid_capacity; lia|].
  vm_compute. reflexivity.
Defined.

(** X3.  In a configuration returned for a capacity of [100, 50000] the
    memory is the request [max(2, ceil(n / 50)) * 1024] clamped from both
    sides into the bounds that [CPU_MEMORY_MIN] and [CPU_MEMORY_MAX] give for
    the chosen CPU option, and so lies between them. *)
Theorem X3_memory_within_bounds n r :
  valid_capacity n -> calculate_resources n = Ok r ->
  memory_within_bounds n r.
Proof.
  intros Hn H.
  destruct (memory_mb_clamped n r Hn H) as (lo & hi & Hlo & Hhi & Hmb & Hin & _).
  exists lo, hi. auto.
Qed.

Lemma X3_memory_within_bounds_witness :
  memory_within_bounds 500
    (Resources 5 8192 16 16384 1 "cache.t3.micro" 0 "generalPurpose" 1 false).
Proof.
  apply (X3_memory_within_bounds 500); [unfold valid_capacity; lia|].
  vm_compute. reflexivity.
Defined.

(** X4.  In a configuration returned for a capacity of [100, 50000] the
    request never exceeds the lower bound of the chosen CPU option: the
    memory is always that lower bound, twice the CPU units, and [memory_gb]
    is a whole number of GB (the upper bound never applies). *)
Theorem X4_memory_is_minimum n r :
  valid_capacity n -> calculate_resources n = Ok r ->
  memory_is_minimum r.
Proof.
  intros Hn H. pose proof (calculate_resources_Ok_small n r Hn H) as Hsmall.
  destruct (cpu_units_by_band n r Hn H) as [_ Hu].
  destruct (memory_mb_clamped n r Hn H)
    as (lo & hi & Hlo & Hhi & Hmb & _ & Hgb).
  destruct Hn as [Hn _]. unfold memory_is_minimum.
  rewrite Hgb. rewrite Hu in *. unfold cpu_option_of in *.
  destruct (Z.leb_spec n 100);
    [pose proof (ceil_div_range n 50 1 2 ltac:(lia) ltac:(lia))|].
  2: destruct (Z.leb_spec n 200);
    [pose proof (ceil_div_range n 50 3 4 ltac:(lia) ltac:(lia))|].
  3: destruct (Z.leb_spec n 400);
    [pose proof (ceil_div_range n 50 5 8 ltac:(lia) ltac:(lia))|].
  4: destruct (Z.leb_spec n 800);
    [pose proof (ceil_div_range n 50 9 16 ltac:(lia) ltac:(lia))|
     pose proof (ceil_div_range n 50 17 32 ltac:(lia) ltac:(lia))].
  all: vm_compute in Hlo, Hhi; injection Hlo as <-; injection Hhi as <-.
  all: match type of Hmb with
       | ?m = Z.max ?lo _ => assert (m = lo) as -> by lia
       end.
  all: repeat split; reflexivity.
Qed.

Lemma X4_memory_is_minimum_witness :
  memory_is_minimum
    (Resources 5 8192 16 16384 1 "cache.t3.micro" 0 "generalPurpose" 1 false).
Proof.
  apply (X4_memory_is_minimum 500); [unfold valid_capacity; lia|].
  vm_compute. reflexivity.
Defined.

(** X5.  Between two capacities of [100, 50000] for which the function
    returns, the larger one gets at least the CPU units, memory, task count,
    NAT gateway count and Redis replica count of the smaller one. *)
Theorem X5_sizes_monotone a b ra rb :
  valid_capacity a -> valid_capacity b -> a <= b ->
  calculate_resources a = Ok ra -> calculate_resources b = Ok rb ->
  sizes_le ra rb.
Proof.
  intros Ha Hb Hab HA HB.
  exact (calculate_resources_mono a b ra rb Ha Hb Hab HA HB).
Qed.

Lemma X5_sizes_monotone_witness :
  sizes_le
    (Resources 1 1024 2 2048 1 "cache.t3.micro" 0 "generalPurpose" 1 false)
    (Resources 5 8192 16 16384 1 "cache.t3.micro" 0 "generalPurpose" 1 false).
Proof.
  apply (X5_sizes_monotone 100 500);
    try (unfold valid_capacity; lia); vm_compute; reflexivity.
Defined.

(** X6.  Every configuration returned for a capacity of [100, 50000] is a
    single-node one: one task, no Redis replica, one NAT gateway, general
    purpose storage, [cache.t3.micro] up to 500 players and
    [cache.t3.small] above, the accelerator enabled from 1000 players on.
    The larger Redis types, [maxIO], a second gateway and a second task are
    never returned. *)
Theorem X6_single_node n r :
  valid_capacity n -> calculate_resources n = Ok r -> single_node n r.
Proof.
  intros Hn H. pose proof (calculate_resources_Ok_small n r Hn H) as Hsmall.
  destruct (calculate_resources_Ok n r Hn H) as (c & lo & hi & _ & _ & _ & ->).
  destruct Hn as [Hn _].
  pose proof (ceil_div_range n 5000 1 1 ltac:(lia) ltac:(lia)) as H5000.
  unfold single_node, sized, select_redis_node_type. cbn.
  destruct (Z.ltb_spec n 5000); [|lia].
  destruct (Z.geb_spec n 5000); [lia|].
  destruct (Z.geb_spec n 10000); [lia|].
  destruct (Z.leb_spec n 2000); [|lia].
  repeat split; lia.
Qed.

Lemma X6_single_node_witness :
  single_node 1000
    (Resources 10 16384 32 32768 1 "cache.t3.small" 0 "generalPurpose" 1 true).
Proof.
  apply (X6_single_node 1000); [unfold valid_capacity; lia|].
  vm_compute. reflexivity.
Defined.

(** X7.  On every capacity of [100, 50000] the three ceilings the sizing
    takes through a float quotient, [math.ceil(n / 100)], [math.ceil(n / 50)]
    and [math.ceil(n / 5000)], are the exact integer ceilings: float rounding
    never moves a capacity into another size. *)
Theorem X7_float_ceilings_exact n :
  valid_capacity n -> ceilings_exact n.
Proof.
  intros Hn. unfold ceilings_exact.
  rewrite (math_ceil_100 n Hn), (math_ceil_50 n Hn), (math_ceil_5000 n Hn).
  repeat split.
Qed.

Lemma X7_float_ceilings_exact_witness : ceilings_exact 4999.
Proof.
  apply (X7_float_ceilings_exact 4999). unfold valid_capacity. lia.
Defined.

(** ** Further properties of the costing *)

(** X8.  For a configuration returned for a capacity of [100, 50000] five
    of the six line items take fixed values: storage 30.00, load balancer
    16.20, NAT 32.40, Redis 12.41 up to 500 players and 24.82 above,
    accelerator 7.20 from 1000 players on and 0 below.  Only the compute
    line depends on the CPU and memory sizes. *)
Theorem X8_fixed_line_items n r :
  valid_capacity n -> calculate_resources n = Ok r ->
  fixed_line_items n (calculate_costs r).
Proof.
  intros Hn H. pose proof (calculate_resources_Ok_small n r Hn H) as Hsmall.
  destruct (calculate_resources_Ok n r Hn H) as (c & lo & hi & _ & _ & _ & ->).
  destruct Hn as [Hn _].
  pose proof (ceil_div_range n 5000 1 1 ltac:(lia) ltac:(lia)) as H5000.
  assert (ceil_div n 5000 = 1) as H1 by lia.
  unfold fixed_line_items, calculate_costs, redis_cost, redis_hourly,
    nat_cost, accelerator_cost, sized, select_redis_node_type.
  cbn [Cost.efs Cost.alb Cost.nat Cost.redis Cost.accelerator
       redis_node_type redis_replica_count nat_gateway_count
       enable_global_accelerator].
  rewrite H1.
  destruct (Z.geb_spec n 10000); [lia|].
  destruct (Z.leb_spec n 2000); [|lia].
  repeat split; try reflexivity.
  - destruct (Z.leb_spec n 500); reflexivity.
  - destruct (Z.geb_spec n 1000), (Z.leb_spec 1000 n); try lia; reflexivity.
Qed.

Lemma X8_fixed_line_items_witness :
  fixed_line_items 1000
    (calculate_costs
       (Resources 10 16384 32 32768 1 "cache.t3.small" 0 "generalPurpose" 1
          true)).
Proof.
  apply (X8_fixed_line_items 1000); [unfold valid_capacity; lia|].
  vm_compute. reflexivity.
Defined.

(** X9.  For every configuration returned for a capacity of [100, 50000]
    the total, although rounded from the unrounded sum, equals the sum of
    the six rounded line items rounded to two decimals: the printed total
    never differs from the printed items by a cent. *)
Theorem X9_total_matches_line_items n r :
  valid_capacity n -> calculate_resources n = Ok r ->
  (Cost.total (calculate_costs r) =?
   Py.round (sum_of_line_items (calculate_costs r)) 2)%float = true.
Proof.
  intros Hn H. pose proof (calculate_resources_Ok_small n r Hn H) as Hsmall.
  assert (total_matches_items n = true) as Hc.
  { apply (forall_between_spec total_matches_items 100 1600);
      [|unfold valid_capacity in Hn; lia].
    vm_cast_no_check (eq_refl true). }
  unfold total_matches_items in Hc. rewrite H in Hc. exact Hc.
Qed.

Lemma X9_total_matches_line_items_witness :
  (Cost.total
     (calculate_costs
        (Resources 5 8192 16 16384 1 "cache.t3.micro" 0 "generalPurpose" 1
           false)) =?
   Py.round
     (sum_of_line_items
        (calculate_costs
           (Resources 5 8192 16 16384 1 "cache.t3.micro" 0 "generalPurpose" 1
              false))) 2)%float = true.
Proof.
  apply (X9_total_matches_line_items 500); [unfold valid_capacity; lia|].
  vm_compute. reflexivity.
Defined.

(** ** Further properties of [main] *)

(** X11.  When [int] reads the first argument as a capacity of
    [100, 1600], the run enters [calculate_resources], then
    [calculate_costs] on its result, prints one document carrying that
    configuration and its breakdown (the JSON one exactly when [--json]
    occurs anywhere on the command line) and ends with status 0.  This holds
    whichever strings [int] reads as integers. *)
Theorem X11_main_success int argv s n :
  argv !! 1%nat = Some s -> int s = Some n -> 100 <= n <= 1600 ->
  exists r,
    calculate_resources n = Ok r /\ main int argv = success_run argv n r.
Proof.
  intros Hs Hint Hn.
  assert (valid_capacity n) as Hv by (unfold valid_capacity; lia).
  destruct (calculate_resources_returns n Hv) as [r Hr]; [lia|].
  exists r. split; [exact Hr|].
  rewrite (main_checked int argv s n Hs Hint Hv), Hr. reflexivity.
Qed.

Lemma X11_main_success_witness :
  exists r,
    calculate_resources 500 = Ok r /\
    main int_ascii ["scripts/calculate-cost.py"; "500"; "--json"]%string =
    success_run ["scripts/calculate-cost.py"; "500"; "--json"]%string 500 r.
Proof.
  apply (X11_main_success int_ascii _ "500"%string 500); [reflexivity..|lia].
Defined.

(** An invalid command line gives one printed line and status 1. *)
Lemma invalid_input_run int argv :
  invalid_input int argv -> exists msg, main int argv = ([Print msg], 1).
Proof.
  intros [Hlen | s Hs Hint | s n Hs Hint Hrange]; unfold main.
  - destruct (Z.ltb_spec (Z.of_nat (length argv)) 2); [eauto|lia].
  - pose proof (lookup_lt_Some _ _ _ Hs).
    destruct (Z.ltb_spec (Z.of_nat (length argv)) 2); [lia|].
    rewrite Hs. change (default ""%string (Some s)) with s.
    rewrite Hint. eauto.
  - pose proof (lookup_lt_Some _ _ _ Hs).
    destruct (Z.ltb_spec (Z.of_nat (length argv)) 2); [lia|].
    rewrite Hs. change (default ""%string (Some s)) with s. rewrite Hint.
    destruct (Z.ltb_spec n 100), (Z.gtb_spec n 50000); cbn; eauto; lia.
Qed.

(** X12.  The exit status of a run is 0 or 1, and it is 0 exactly when
    there is a first argument that [int] reads as an integer of
    [100, 1600].  This holds whichever strings [int] reads as integers. *)
Theorem X12_exit_status int argv :
  ((main int argv).2 = 0 \/ (main int argv).2 = 1) /\
  ((main int argv).2 = 0 <->
   exists s n,
     argv !! 1%nat = Some s /\ int s = Some n /\ 100 <= n <= 1600).
Proof.
  destruct (argv !! 1%nat) as [s|] eqn:Hs.
  - destruct (int s) as [n|] eqn:Hint.
    + destruct (Z.lt_ge_cases n 100) as [Hlow|Hlo].
      { destruct (invalid_input_run int argv) as (msg & Hmain);
          [eapply out_of_range; eauto|].
        rewrite Hmain. cbn. split; [now right|]. split; [discriminate|].
        intros (s' & n' & Hs' & Hint' & Hn'). simplify_eq. lia. }
      destruct (Z.lt_ge_cases 50000 n) as [Hhigh|Hhi].
      { destruct (invalid_input_run int argv) as (msg & Hmain);
          [eapply out_of_range; eauto|].
        rewrite Hmain. cbn. split; [now right|]. split; [discriminate|].
        intros (s' & n' & Hs' & Hint' & Hn'). simplify_eq. lia. }
      destruct (Z.le_gt_cases n 1600) as [Hsmall|Hbig].
      * assert (valid_capacity n) as Hv by (unfold valid_capacity; lia).
        destruct (calculate_resources_returns n Hv Hsmall) as [r Hr].
        rewrite (main_checked int argv s n Hs Hint Hv), Hr. cbn.
        split; [now left|]. split; [eauto 10|reflexivity].
      * rewrite (main_traceback int argv s n Hs Hint) by lia. cbn.
        split; [now right|]. split; [discriminate|].
        intros (s' & n' & Hs' & Hint' & Hn'). simplify_eq. lia.
    + destruct (invalid_input_run int argv) as (msg & Hmain);
        [eapply not_an_integer; eauto|].
      rewrite Hmain. cbn. split; [now right|]. split; [discriminate|].
      intros (s' & n' & Hs' & Hint' & Hn'). simplify_eq.
  - destruct (invalid_input_run int argv) as (msg & Hmain).
    { apply missing_argument. apply lookup_ge_None in Hs. lia. }
    rewrite Hmain. cbn. split; [now right|]. split; [discriminate|].
    intros (s' & n' & Hs' & _). discriminate Hs'.
Qed.

(** X13.  When [int] reads the first argument as a capacity of
    [1601, 50000], which the range check lets through, the run enters
    [calculate_resources] and ends there with a [ValueError] traceback and
    status 1: [calculate_costs] is not entered and no document is printed,
    with or without [--json].  This holds whichever strings [int] reads as
    integers. *)
Theorem X13_main_traceback int argv s n :
  argv !! 1%nat = Some s -> int s = Some n -> 1600 < n <= 50000 ->
  main int argv = ([Call_calculate_resources n; Traceback ValueError], 1).
Proof.
  intros Hs Hint Hn. exact (main_traceback int argv s n Hs Hint Hn).
Qed.

Lemma X13_main_traceback_witness :
  main int_ascii ["scripts/calculate-cost.py"; "50000"; "--json"]%string =
  ([Call_calculate_resources 50000; Traceback ValueError], 1).
Proof.
  apply (X13_main_traceback int_ascii _ "50000"%string 50000);
    [reflexivity..|lia].
Defined.

(** X14.  A run depends on the command line only through its first
    argument and through whether [--json] occurs in it: two command lines
    with an argument that agree on both give the same run, so any other
    argument is ignored. *)
Theorem X14_other_arguments_ignored int argv argv' :
  (2 <= length argv)%nat -> (2 <= length argv')%nat ->
  argv !! 1%nat = argv' !! 1%nat ->
  ("--json"%string ∈ argv <-> "--json"%string ∈ argv') ->
  main int argv = main int argv'.
Proof.
  intros Hlen Hlen' Harg Hjson. unfold main.
  destruct (Z.ltb_spec (Z.of_nat (length argv)) 2); [lia|].
  destruct (Z.ltb_spec (Z.of_nat (length argv')) 2); [lia|].
  rewrite Harg, (bool_decide_ext _ _ Hjson). reflexivity.
Qed.

Lemma X14_other_arguments_ignored_witness :
  main int_ascii ["scripts/calculate-cost.py"; "500"; "--verbose"; "x"]%string =
  main int_ascii ["calculate-cost.py"; "500"]%string.
Proof.
  apply X14_other_arguments_ignored; [cbn; lia | cbn; lia | reflexivity |].
  split; intros H; exfalso; apply list_elem_of_In in H; cbn in H;
    intuition discriminate.
Defined.
